(** * Background-removal service (app.py): a shallow embedding

    The Flask application of [src/app.py] is embedded function by function:
    [allowed_file], [validate_image_file], [init_model], [health_check],
    [remove_background], the 413 error handler and the script entry point.
    Python's ambient effects (the global [rembg_session], the mutable
    upload streams, the logger, calls into PIL, rembg and the WSGI server)
    are made explicit in a state and exception monad over a [World] that
    holds the global, the streams and a trace of the effects performed.
    Exceptions are the instances of [Exception], those that the program's
    [except Exception] clauses catch. *)

From Stdlib Require Import NArith ZArith Ascii String List Lia.
From stdpp Require Import base decidable option list strings gmap.

Local Open Scope string_scope.
Local Open Scope list_scope.
Local Open Scope N_scope.

(** ** Strings

    Python [str] values are modelled by [string] (sequences of 8-bit
    characters, i.e. the UTF-8 encoding of the text).  The only string
    operations of the program are the search for ['.'], [rsplit('.', 1)] and
    [lower()], compared against four ASCII words; on UTF-8 text these act
    on ASCII characters exactly as below, and no character outside ASCII
    lower-cases to one of the letters of the four words. *)

Module PyStr.

(** [c in s] for a one-character [c]. *)
Fixpoint contains (c : ascii) (s : string) : bool :=
  match s with
  | EmptyString => false
  | String a s' => Ascii.eqb a c || contains c s'
  end.

(** The split point of [s.rsplit(sep, 1)]: the text before and after the
    last occurrence of [sep], if there is one. *)
Fixpoint rsplit_last (sep : ascii) (s : string) : option (string * string) :=
  match s with
  | EmptyString => None
  | String a s' =>
      match rsplit_last sep s' with
      | Some (h, t) => Some (String a h, t)
      | None => if Ascii.eqb a sep then Some (EmptyString, s') else None
      end
  end.

(** [s.rsplit(sep, 1)]: a list of two strings, or of [s] alone when [sep]
    does not occur. *)
Definition rsplit (sep : ascii) (s : string) : list string :=
  match rsplit_last sep s with
  | Some (h, t) => [h; t]
  | None => [s]
  end.

Definition lower_ascii (c : ascii) : ascii :=
  let n := N_of_ascii c in
  if (65 <=? n) && (n <=? 90) then ascii_of_N (n + 32) else c.

(** [s.lower()]. *)
Fixpoint lower (s : string) : string :=
  match s with
  | EmptyString => EmptyString
  | String a s' => String (lower_ascii a) (lower s')
  end.

(** [sep.join(l)]. *)
Fixpoint join (sep : string) (l : list string) : string :=
  match l with
  | [] => ""
  | [x] => x
  | x :: l' => x +:+ sep +:+ join sep l'
  end.

End PyStr.

(** ** Configuration (app.py, lines 35-37) *)

Definition MAX_FILE_SIZE : N := 10 * 1024 * 1024.

Definition ALLOWED_EXTENSIONS : gset string :=
  {[ "png"; "jpg"; "jpeg"; "webp" ]}.

(** [allowed_file] (lines 54-57).  The index [[1]] is evaluated only when
    ['.' in filename] holds ([and] short-circuits); [rsplit] then has two
    elements (lemma [rsplit_index_1] below), so the [None] branch, Python's
    [IndexError], is never taken. *)
Definition allowed_file (filename : string) : bool :=
  PyStr.contains "." filename &&
  match PyStr.rsplit "." filename !! 1%nat with
  | Some ext => bool_decide (PyStr.lower ext ∈ ALLOWED_EXTENSIONS)
  | None => false
  end.

(** ** Values of the program *)

Definition bytes := list Byte.byte.

(** A raised [Exception]: its class and [str(e)]. *)
Record Exception := mkException {
  exc_class : string;
  exc_str : string
}.

(** JSON bodies built by [jsonify].  [JNow] stands for the value of
    [datetime.utcnow().isoformat()] at the time of the call. *)
Inductive JsonValue :=
| JString (s : string)
| JNull
| JNow.

Inductive Response :=
| Json (body : list (string * JsonValue)) (status : N)
| Empty (status : N)
| SendFile (data : bytes) (mimetype : string)
    (as_attachment : bool) (download_name : string).

Definition status_code (r : Response) : N :=
  match r with
  | Json _ st => st
  | Empty st => st
  | SendFile _ _ _ _ => 200
  end.

(** ** External collaborators

    PIL and rembg are outside the repository; the program only calls them.
    Each call either returns a value or raises.  The one fact about PIL the
    development relies on is that [Image.convert(mode)] returns an image of
    the requested mode. *)

Class PIL := {
  Image : Type;
  mode : Image -> string;
  Image_open : bytes -> Exception + Image;
  Image_convert : Image -> string -> Exception + Image;
  Image_save : Image -> string -> Exception + bytes;
  Image_convert_mode : forall img m img',
    Image_convert img m = inr img' -> mode img' = m
}.

Class Rembg := {
  Session : Type;
  new_session : string -> Exception + Session;
  remove : bytes -> Session -> bool -> Exception + bytes
}.

(** ** Uploaded files

    [request.files['image']] is a werkzeug [FileStorage]: a declared
    filename and a seekable byte stream.  Streams are mutable objects; they
    live in the store of the [World] and a [FileStorage] refers to its
    stream by address. *)

Record Stream := mkStream {
  content : bytes;
  position : N
}.

Inductive Whence := SEEK_SET | SEEK_END.

Definition size_of (s : Stream) : N := N.of_nat (length (content s)).

(** [stream.seek(offset, whence)] for the two forms the program uses. *)
Definition stream_seek (offset : N) (whence : Whence) (s : Stream) : Stream :=
  match whence with
  | SEEK_SET => mkStream (content s) offset
  | SEEK_END => mkStream (content s) (size_of s + offset)
  end.

(** [stream.read()]: the bytes from the current position to the end; the
    position moves to the end (and stays where it is when already past). *)
Definition stream_read (s : Stream) : bytes * Stream :=
  (drop (N.to_nat (position s)) (content s),
   mkStream (content s) (N.max (position s) (size_of s))).

Record FileStorage := mkFile {
  filename : string;
  stream : N
}.

(** Truth value of the validator's argument in [if not file].  [None] is
    falsy.  A [FileStorage] is an object with its own truth value:
    werkzeug defines [FileStorage.__bool__] as [bool(self.filename)], so a
    file is truthy exactly when its filename is not empty. *)
Definition truthy (file : option FileStorage) : bool :=
  match file with
  | None => false
  | Some f => negb (String.eqb (filename f) "")
  end.

Inductive Method := POST | OPTIONS.

(** A request routed to [/api/remove-bg]: its method and the file fields
    of the multipart form, in order ([request.files], a [MultiDict]). *)
Record Request := mkRequest {
  method : Method;
  files : list (string * FileStorage)
}.

(** [key in request.files] and [request.files[key]] (the first value). *)
Fixpoint files_get (key : string) (l : list (string * FileStorage))
  : option FileStorage :=
  match l with
  | [] => None
  | (k, f) :: l' => if String.eqb k key then Some f else files_get key l'
  end.

(** ** Effects *)

Inductive Level := INFO | ERROR.

(** The log lines of the program, by the statement that writes them; the
    argument is the text interpolated into the line. *)
Inductive LogMsg :=
| InitializingModel
| ModelInitialized
| InitFailed (e : string)
| HealthCheckFailed (e : string)
| NewRequest
| ModelNotInitialized
| ProcessingImage (name : string)
| ConvertingImage (from : string)
| ImageFailed (e : string)
| RemovingBackground
| BackgroundRemoved
| RequestFailed (e : string).

Inductive Event :=
| Log (level : Level) (msg : LogMsg)
| CallNewSession (model : string)
| CallImageOpen (data : bytes)
| CallConvert (to : string)
| CallSave (format : string)
| CallRemove (data : bytes) (post_process_mask : bool)
| Listen (host : string) (port : Z) (debug : bool).

Section Effects.

Context `{rembg : Rembg}.

(** The state of the process: the module global [rembg_session], the
    stream objects, and the effects performed so far, oldest first. *)
Record World := mkWorld {
  rembg_session : option Session;
  streams : gmap N Stream;
  trace : list Event
}.

(** Computations: state passing, and a result that is a value or a raised
    exception.  State changes made before a raise are kept. *)
Definition M (A : Type) : Type := World -> (Exception + A) * World.

Definition ret {A} (a : A) : M A := fun w => (inr a, w).

Definition bind {A B} (c : M A) (k : A -> M B) : M B :=
  fun w =>
    match c w with
    | (inr a, w') => k a w'
    | (inl e, w') => (inl e, w')
    end.

Definition raise {A} (e : Exception) : M A := fun w => (inl e, w).

(** [try: c  except Exception as e: h e]. *)
Definition try_except {A} (c : M A) (h : Exception -> M A) : M A :=
  fun w =>
    match c w with
    | (inr a, w') => (inr a, w')
    | (inl e, w') => h e w'
    end.

Definition emit (ev : Event) : M unit :=
  fun w => (inr tt, mkWorld (rembg_session w) (streams w) (trace w ++ [ev])).

Definition log (l : Level) (m : LogMsg) : M unit := emit (Log l m).

(** An external call: recorded in the trace, then its outcome. *)
Definition call {A} (ev : Event) (outcome : Exception + A) : M A :=
  fun w =>
    (outcome, mkWorld (rembg_session w) (streams w) (trace w ++ [ev])).

Definition get_session : M (option Session) :=
  fun w => (inr (rembg_session w), w).

Definition set_session (s : option Session) : M unit :=
  fun w => (inr tt, mkWorld s (streams w) (trace w)).

Definition lift {A} (outcome : Exception + A) : M A := fun w => (outcome, w).

End Effects.

Arguments World {rembg}.
Arguments M {rembg} A.

Notation "x <- c ;; k" := (bind c (fun x => k))
  (at level 100, c at next level, k at level 200, right associativity,
   only parsing).
Notation "c ;; k" := (bind c (fun _ => k))
  (at level 100, k at level 200, right associativity, only parsing).

Section App.

Context `{pil : PIL} `{rembg : Rembg}.

(** *** Stream operations on an uploaded file

    An operation on a stream that is not in the store (a closed file)
    raises [ValueError]. *)

Definition closed_file : Exception :=
  mkException "ValueError" "I/O operation on closed file.".

Definition with_stream {A} (f : FileStorage) (op : Stream -> A * Stream) : M A :=
  fun w =>
    match streams w !! stream f with
    | Some s =>
        let '(a, s') := op s in
        (inr a,
         mkWorld (rembg_session w) (<[stream f := s']> (streams w)) (trace w))
    | None => (inl closed_file, w)
    end.

Definition seek (f : FileStorage) (offset : N) (whence : Whence) : M unit :=
  with_stream f (fun s => (tt, stream_seek offset whence s)).

Definition tell (f : FileStorage) : M N :=
  with_stream f (fun s => (position s, s)).

Definition read (f : FileStorage) : M bytes :=
  with_stream f stream_read.

(** *** [init_model] (lines 43-52) *)

Definition model_name : string := "isnet-general-use".

Definition init_model : M unit :=
  try_except
    (log INFO InitializingModel ;;
     s <- call (CallNewSession model_name) (new_session model_name) ;;
     set_session (Some s) ;;
     log INFO ModelInitialized)
    (fun e =>
       log ERROR (InitFailed (exc_str e)) ;;
       raise e).

(** *** [validate_image_file] (lines 59-78)

    The rendering of the set in the "not allowed" message follows the
    iteration order of the Python set, which depends on the interpreter's
    string hashing: it is the variable [order].  The last message formats
    [MAX_FILE_SIZE / (1024*1024)], the float [10.0]. *)

Variable order : list string.

Definition msg_no_file : string := "No file provided".
Definition msg_no_name : string := "No file selected".
Definition msg_bad_type : string :=
  "File type not allowed. Supported: " +:+ PyStr.join ", " order.
Definition msg_too_large : string := "File too large. Maximum size: 10.0MB".

Definition validate_image_file (file : option FileStorage)
  : M (bool * option string) :=
  if negb (truthy file) then ret (false, Some msg_no_file)
  else
    match file with
    | None => raise (mkException "AttributeError" "filename")
    | Some f =>
        if String.eqb (filename f) "" then ret (false, Some msg_no_name)
        else if negb (allowed_file (filename f)) then
          ret (false, Some msg_bad_type)
        else
          seek f 0 SEEK_END ;;
          file_size <- tell f ;;
          seek f 0 SEEK_SET ;;
          if MAX_FILE_SIZE <? file_size then ret (false, Some msg_too_large)
          else ret (true, None)
    end.

(** *** [health_check] (lines 105-121)

    The [try] body reads the global, then evaluates
    [datetime.utcnow().isoformat()] and calls [jsonify]; the [except]
    clause logs, then evaluates [datetime.utcnow().isoformat()] and calls
    [jsonify] again.  These four library calls are the ones that can
    raise.  [faults] tells, for one request, which of them do and with
    what; it is [None] when every call returns. *)

Record HealthFaults := mkHealthFaults {
  try_clock : option Exception;
  try_jsonify : option Exception;
  except_clock : option Exception;
  except_jsonify : option Exception
}.

(** A library call that returns, or raises the given exception. *)
Definition may_raise (fault : option Exception) : M unit :=
  match fault with
  | Some e => raise e
  | None => ret tt
  end.

Definition health_check (faults : option HealthFaults) : M Response :=
  let fault_at (call : HealthFaults -> option Exception) :=
    match faults with Some f => call f | None => None end in
  try_except
    (sess <- get_session ;;
     let model_status :=
       match sess with Some _ => "loaded" | None => "not_loaded" end in
     may_raise (fault_at try_clock) ;;
     may_raise (fault_at try_jsonify) ;;
     ret (Json [("status", JString "healthy");
                ("model", JString model_status);
                ("timestamp", JNow)] 200))
    (fun e =>
       log ERROR (HealthCheckFailed (exc_str e)) ;;
       may_raise (fault_at except_clock) ;;
       may_raise (fault_at except_jsonify) ;;
       ret (Json [("status", JString "unhealthy");
                  ("error", JString (exc_str e));
                  ("timestamp", JNow)] 503)).

(** *** [remove_background] (lines 123-217) *)

Definition json_of_message (m : option string) : JsonValue :=
  match m with Some s => JString s | None => JNull end.

Definition resp_not_ready : Response :=
  Json [("error", JString "Service not ready");
        ("message", JString "Background removal model is not loaded")] 503.

Definition resp_bad_request : Response :=
  Json [("error", JString "Bad request");
        ("message", JString "No image file provided in request")] 400.

Definition resp_invalid_file (error_message : option string) : Response :=
  Json [("error", JString "Invalid file");
        ("message", json_of_message error_message)] 400.

Definition resp_invalid_image : Response :=
  Json [("error", JString "Invalid image");
        ("message", JString
           "Could not process image file. Please ensure it's a valid image.")]
       400.

Definition resp_internal_error : Response :=
  Json [("error", JString "Internal server error");
        ("message", JString
           "An error occurred while processing your image. Please try again.")]
       500.

Definition mode_is_rgb_or_rgba (m : string) : bool :=
  bool_decide (m ∈ ["RGB"; "RGBA"]).

(** The inner [try] (lines 168-186): the re-encoded bytes, or the response
    its [except] clause returns. *)
Definition decode_and_normalize (input_data : bytes) : M (Response + bytes) :=
  try_except
    (img <- call (CallImageOpen input_data) (Image_open input_data) ;;
     img <- (if negb (mode_is_rgb_or_rgba (mode img)) then
               log INFO (ConvertingImage (mode img)) ;;
               call (CallConvert "RGB") (Image_convert img "RGB")
             else ret img) ;;
     input_data <- call (CallSave "PNG") (Image_save img "PNG") ;;
     ret (inr input_data))
    (fun e =>
       log ERROR (ImageFailed (exc_str e)) ;;
       ret (inl resp_invalid_image)).

Definition remove_background (request : Request) : M Response :=
  match method request with
  | OPTIONS => ret (Empty 204)
  | POST =>
      log INFO NewRequest ;;
      try_except
        (sess <- get_session ;;
         match sess with
         | None =>
             log ERROR ModelNotInitialized ;;
             ret resp_not_ready
         | Some session =>
             match files_get "image" (files request) with
             | None => ret resp_bad_request
             | Some file =>
                 v <- validate_image_file (Some file) ;;
                 let '(is_valid, error_message) := v in
                 if negb is_valid then ret (resp_invalid_file error_message)
                 else
                   log INFO (ProcessingImage (filename file)) ;;
                   input_data <- read file ;;
                   r <- decode_and_normalize input_data ;;
                   match r with
                   | inl response => ret response
                   | inr input_data =>
                       log INFO RemovingBackground ;;
                       output_data <-
                         call (CallRemove input_data true)
                              (remove input_data session true) ;;
                       log INFO BackgroundRemoved ;;
                       ret (SendFile output_data "image/png" false
                                     "removed_bg.png")
                   end
             end
         end)
        (fun e =>
           log ERROR (RequestFailed (exc_str e)) ;;
           ret resp_internal_error)
  end.

(** The handler's response written as a function of what it reads: the
    global session, the request, and the content of the streams.  The
    outcome of the three PIL calls of the inner [try] comes first.  Lemma
    [remove_background_run] proves that the handler computes exactly
    this. *)

Definition decode (data : bytes) : Exception + bytes :=
  match Image_open data with
  | inl e => inl e
  | inr img =>
      match (if mode_is_rgb_or_rgba (mode img) then inr img
             else Image_convert img "RGB") with
      | inl e => inl e
      | inr img => Image_save img "PNG"
      end
  end.

Definition response_of (sess : option Session) (request : Request)
    (store : N -> option bytes) : Response :=
  match method request, sess with
  | OPTIONS, _ => Empty 204
  | POST, None => resp_not_ready
  | POST, Some session =>
      match files_get "image" (files request) with
      | None => resp_bad_request
      | Some file =>
          if String.eqb (filename file) "" then
            resp_invalid_file (Some msg_no_file)
          else if negb (allowed_file (filename file)) then
            resp_invalid_file (Some msg_bad_type)
          else
            match store (stream file) with
            | None => resp_internal_error
            | Some data =>
                if MAX_FILE_SIZE <? N.of_nat (length data) then
                  resp_invalid_file (Some msg_too_large)
                else
                  match decode data with
                  | inl _ => resp_invalid_image
                  | inr png =>
                      match remove png session true with
                      | inl _ => resp_internal_error
                      | inr out =>
                          SendFile out "image/png" false "removed_bg.png"
                      end
                  end
            end
      end
  end.

(** *** Error handlers (lines 219-234) *)

Definition request_entity_too_large (error : Exception) : Response :=
  Json [("error", JString "File too large");
        ("message", JString "Maximum file size is 10.0MB")] 413.

(** *** The module body and the script entry point (lines 41, 236-249)

    [port] is the outcome of [int(os.environ.get('PORT', 5000))].
    [app.run] starts the listener. *)

Definition app_run (host : string) (port : Z) (debug : bool) : M unit :=
  emit (Listen host port debug).

Definition main (port : Exception + Z) : M unit :=
  init_model ;;
  port <- lift port ;;
  app_run "0.0.0.0" port false.

Definition module_body (name : string) (port : Exception + Z) : M unit :=
  set_session None ;;
  if String.eqb name "__main__" then main port else ret tt.

Definition initial_world : World := mkWorld None ∅ [].

(** [w] with the events [evs] appended to its trace. *)
Definition record (w : World) (evs : list Event) : World :=
  mkWorld (rembg_session w) (streams w) (trace w ++ evs).

(** The content of the stream at an address. *)
Definition store_of (w : World) (k : N) : option bytes :=
  content <$> streams w !! k.

(** The world after the three stream calls of the size measurement on
    the stream [st] of [f]: the stream is back at offset 0. *)
Definition rewound (f : FileStorage) (st : Stream) (w : World) : World :=
  mkWorld (rembg_session w)
          (<[stream f := mkStream (content st) 0]> (streams w))
          (trace w).

(** The events of the inner [try]: log lines and PIL calls. *)
Definition codec_event (ev : Event) : Prop :=
  match ev with
  | Log _ _ | CallImageOpen _ | CallConvert _ | CallSave _ => True
  | _ => False
  end.

(** The two bodies [health_check] answers with. *)
Definition resp_healthy (model_status : string) : Response :=
  Json [("status", JString "healthy");
        ("model", JString model_status);
        ("timestamp", JNow)] 200.

Definition resp_unhealthy (e : Exception) : Response :=
  Json [("status", JString "unhealthy");
        ("error", JString (exc_str e));
        ("timestamp", JNow)] 503.

End App.

(** ** The collaborators over time

    PIL and rembg are called once per request, and nothing in the program
    makes a later call answer as an earlier one did.  Two requests are
    therefore handled with two instances of each collaborator.  For rembg
    the two share the session type and the loader, and differ in the
    segmentation call. *)



(** ** Instances to run the embedding on

    A small codec and two segmentation back ends, so that the handlers can
    be evaluated on concrete requests.  The codec reads the colour mode from
    the first byte of the upload: 1 is RGB, 2 is RGBA, 3 is L (greyscale);
    anything else is not an image. *)

Module Sample.

Definition mode_of_tag (b : Byte.byte) : option string :=
  match b with
  | Byte.x01 => Some "RGB"
  | Byte.x02 => Some "RGBA"
  | Byte.x03 => Some "L"
  | _ => None
  end.

Definition tag_of_mode (m : string) : Byte.byte :=
  if String.eqb m "RGB" then Byte.x01
  else if String.eqb m "RGBA" then Byte.x02
  else Byte.x03.

Definition unidentified : Exception :=
  mkException "UnidentifiedImageError" "cannot identify image file".

Definition open (data : bytes) : Exception + (string * bytes) :=
  match data with
  | b :: px =>
      match mode_of_tag b with
      | Some m => inr (m, px)
      | None => inl unidentified
      end
  | [] => inl unidentified
  end.

#[export] Program Instance pil : PIL := {|
  Image := string * bytes;
  mode := fst;
  Image_open := open;
  Image_convert := fun img m => inr (m, snd img);
  Image_save := fun img _ => inr (tag_of_mode (fst img) :: snd img)
|}.
Next Obligation. intros img m img' H. inversion H. reflexivity. Qed.

(** A back end whose model loads, and whose output is its input. *)
Definition rembg_ok : Rembg := {|
  Session := unit;
  new_session := fun _ => inr tt;
  remove := fun data _ _ => inr data
|}.

(** A back end whose model fails to load. *)
Definition load_error : Exception :=
  mkException "RuntimeError" "model file not found".

Definition rembg_broken : Rembg := {|
  Session := unit;
  new_session := fun _ => inl load_error;
  remove := fun data _ _ => inr data
|}.

Definition order : list string := ["webp"; "png"; "jpeg"; "jpg"].

(** Uploads: a greyscale image, a text file, an oversized file. *)
Definition grey_png : bytes := [Byte.x03; Byte.x10; Byte.x20; Byte.x30].
Definition text_file : bytes := [Byte.x68; Byte.x65; Byte.x6c; Byte.x6c; Byte.x6f].
Definition oversized : bytes := replicate (N.to_nat (MAX_FILE_SIZE + 1)) Byte.x00.

Definition upload (name : string) : Request :=
  mkRequest POST [("image", mkFile name 0)].

(** A back end whose model loads and whose segmentation call raises. *)
Definition inference_error : Exception :=
  mkException "RuntimeError" "onnxruntime: inference failed".

Definition rembg_faulty : Rembg := {|
  Session := unit;
  new_session := fun _ => inr tt;
  remove := fun _ _ _ => inl inference_error
|}.




(** An upload of exactly [MAX_FILE_SIZE] bytes. *)
Definition largest : bytes := replicate (N.to_nat MAX_FILE_SIZE) Byte.x00.

(** A colour image: mode RGBA, three bytes of pixel data. *)
Definition rgba_png : bytes := [Byte.x02; Byte.x0a; Byte.x0b; Byte.x0c].

(** A world whose model is loaded and whose only stream holds [data]. *)
Definition ready (data : bytes) : @World rembg_ok :=
  @mkWorld rembg_ok (Some tt) {[ 0 := mkStream data 0 ]} [].

Definition not_ready (data : bytes) : @World rembg_ok :=
  @mkWorld rembg_ok None {[ 0 := mkStream data 0 ]} [].

End Sample.


(** * Properties *)

(** ** The extension check *)

Section Extension.

Lemma contains_app_sep c a b : PyStr.contains c (a +:+ String c b) = true.
Proof.
  induction a as [|x a IH]; simpl.
  - rewrite Ascii.eqb_refl. reflexivity.
  - rewrite IH. apply orb_true_r.
Qed.

Lemma rsplit_last_none c s :
  PyStr.contains c s = false -> PyStr.rsplit_last c s = None.
Proof.
  induction s as [|x s IH]; simpl; [reflexivity|].
  intros H. apply orb_false_iff in H as [Hx Hs].
  rewrite (IH Hs), Hx. reflexivity.
Qed.

Lemma rsplit_last_some c s :
  PyStr.contains c s = true -> exists h t, PyStr.rsplit_last c s = Some (h, t).
Proof.
  induction s as [|x s IH]; simpl; [discriminate|].
  destruct (PyStr.contains c s) eqn:Hs.
  - destruct (IH eq_refl) as (h & t & ->). eauto.
  - rewrite orb_false_r. intros ->.
    rewrite (rsplit_last_none _ _ Hs). eauto.
Qed.

Lemma rsplit_last_app c a b :
  PyStr.contains c b = false ->
  PyStr.rsplit_last c (a +:+ String c b) = Some (a, b).
Proof.
  intros Hb. induction a as [|x a IH]; simpl.
  - rewrite (rsplit_last_none _ _ Hb), Ascii.eqb_refl. reflexivity.
  - rewrite IH. reflexivity.
Qed.

(** Under the guard ['.' in filename], the index [[1]] of [allowed_file]
    is defined. *)
Lemma rsplit_index_1 s :
  PyStr.contains "." s = true -> is_Some (PyStr.rsplit "." s !! 1%nat).
Proof.
  intros H. destruct (rsplit_last_some _ _ H) as (h & t & Hs).
  unfold PyStr.rsplit. rewrite Hs. simpl. eauto.
Qed.

Lemma allowed_file_no_dot s :
  PyStr.contains "." s = false -> allowed_file s = false.
Proof. intros H. unfold allowed_file. rewrite H. reflexivity. Qed.

Lemma allowed_file_split base ext :
  PyStr.contains "." ext = false ->
  allowed_file (base +:+ "." +:+ ext)
  = bool_decide (PyStr.lower ext ∈ ALLOWED_EXTENSIONS).
Proof.
  intros H. unfold allowed_file, PyStr.rsplit.
  change ("." +:+ ext) with (String "." ext).
  rewrite contains_app_sep, (rsplit_last_app _ _ _ H). reflexivity.
Qed.

Lemma allowed_file_nonempty s : allowed_file s = true -> s <> "".
Proof. intros H ->. discriminate H. Qed.

Lemma allowed_extension_cases e :
  e ∈ ALLOWED_EXTENSIONS <-> e = "png" \/ e = "jpg" \/ e = "jpeg" \/ e = "webp".
Proof.
  unfold ALLOWED_EXTENSIONS.
  rewrite !elem_of_union, !elem_of_singleton. tauto.
Qed.

End Extension.

(** C10.  [allowed_file] looks only at the text after the last dot: a name
    without a dot is rejected; a name [base.ext] whose [ext] has no dot is
    accepted exactly when the lower-cased [ext] is one of the four allowed
    words, whatever [base] is (empty, or itself containing dots); so
    [.png] and [a.exe.png] are accepted and [a.png.exe] is rejected. *)
Theorem allowed_file_inspects_last_extension :
  (forall name, PyStr.contains "." name = false -> allowed_file name = false) /\
  (forall base ext,
      PyStr.contains "." ext = false ->
      allowed_file (base +:+ "." +:+ ext) = true <->
      PyStr.lower ext ∈ ALLOWED_EXTENSIONS) /\
  allowed_file "png" = false /\
  allowed_file ".png" = true /\
  allowed_file "a.exe.png" = true /\
  allowed_file "a.png.exe" = false.
Proof.
  split; [exact allowed_file_no_dot|].
  split.
  - intros base ext H. rewrite (allowed_file_split _ _ H).
    apply bool_decide_eq_true.
  - repeat split; vm_compute; reflexivity.
Qed.

(** ** The validator *)

Section Validator.

Context `{pil : PIL} `{rembg : Rembg}.
Variable order : list string.

Implicit Types (w : World) (f : FileStorage) (st : Stream).

Lemma measure_run f st w :
  streams w !! stream f = Some st ->
  (seek f 0 SEEK_END ;; file_size <- tell f ;; seek f 0 SEEK_SET ;;
   ret file_size) w
  = (inr (size_of st), rewound f st w).
Proof.
  intros Hst. unfold bind, seek, tell, with_stream, ret, rewound. simpl.
  rewrite Hst. simpl. rewrite lookup_insert_eq. simpl.
  rewrite lookup_insert_eq. simpl.
  rewrite !insert_insert_eq, N.add_0_r. reflexivity.
Qed.

Lemma validate_none w :
  validate_image_file order None w = (inr (false, Some msg_no_file), w).
Proof. reflexivity. Qed.

Lemma validate_empty_name f w :
  filename f = "" ->
  validate_image_file order (Some f) w = (inr (false, Some msg_no_file), w).
Proof. intros H. unfold validate_image_file. simpl. rewrite H. reflexivity. Qed.

Lemma validate_bad_type f w :
  filename f <> "" -> allowed_file (filename f) = false ->
  validate_image_file order (Some f) w
  = (inr (false, Some (msg_bad_type order)), w).
Proof.
  intros Hn Ha. unfold validate_image_file. simpl.
  apply String.eqb_neq in Hn. rewrite Hn, Ha. reflexivity.
Qed.

Lemma validate_measured f st w :
  allowed_file (filename f) = true ->
  streams w !! stream f = Some st ->
  validate_image_file order (Some f) w
  = (inr (if MAX_FILE_SIZE <? size_of st
          then (false, Some msg_too_large) else (true, None)),
     rewound f st w).
Proof.
  intros Ha Hst. unfold validate_image_file. simpl.
  pose proof (allowed_file_nonempty _ Ha) as Hn.
  apply String.eqb_neq in Hn. rewrite Hn, Ha. simpl.
  pose proof (measure_run f st w Hst) as Hm.
  unfold bind in *. 
  destruct (seek f 0 SEEK_END w) as [[e|[]] w1]; [discriminate|].
  destruct (tell f w1) as [[e|n] w2]; [discriminate|].
  destruct (seek f 0 SEEK_SET w2) as [[e|[]] w3]; [discriminate|].
  unfold ret in *. inversion Hm; subst.
  destruct (MAX_FILE_SIZE <? size_of st); reflexivity.
Qed.

Lemma validate_closed f w :
  allowed_file (filename f) = true ->
  streams w !! stream f = None ->
  validate_image_file order (Some f) w = (inl closed_file, w).
Proof.
  intros Ha Hst. unfold validate_image_file. simpl.
  pose proof (allowed_file_nonempty _ Ha) as Hn.
  apply String.eqb_neq in Hn. rewrite Hn, Ha. simpl.
  unfold bind, seek, with_stream. rewrite Hst. reflexivity.
Qed.

(** The four checks, in order, with the run of each outcome.  The
    second return of the source (line 65) has no case of its own: an empty
    filename makes the file falsy, so the first check answers. *)
Lemma validate_image_file_cases file w :
  match file with
  | None => validate_image_file order file w = (inr (false, Some msg_no_file), w)
  | Some f =>
      if String.eqb (filename f) "" then
        validate_image_file order file w = (inr (false, Some msg_no_file), w)
      else if negb (allowed_file (filename f)) then
        validate_image_file order file w
        = (inr (false, Some (msg_bad_type order)), w)
      else
        match streams w !! stream f with
        | None => validate_image_file order file w = (inl closed_file, w)
        | Some st =>
            validate_image_file order file w
            = (inr (if MAX_FILE_SIZE <? size_of st
                    then (false, Some msg_too_large) else (true, None)),
               rewound f st w)
        end
  end.
Proof.
  destruct file as [f|]; [|reflexivity].
  destruct (String.eqb (filename f) "") eqn:Hn.
  { apply String.eqb_eq in Hn. apply validate_empty_name, Hn. }
  apply String.eqb_neq in Hn.
  destruct (allowed_file (filename f)) eqn:Ha; simpl.
  2:{ apply validate_bad_type; assumption. }
  destruct (streams w !! stream f) as [st|] eqn:Hst.
  - apply validate_measured; assumption.
  - apply validate_closed; assumption.
Qed.

(** Validation succeeds exactly when the name has an allowed extension
    and the stream is open and holds at most [MAX_FILE_SIZE] bytes. *)
Lemma validate_accepts_iff f w :
  fst (validate_image_file order (Some f) w) = inr (true, None) <->
  allowed_file (filename f) = true /\
  exists st, streams w !! stream f = Some st /\ size_of st <= MAX_FILE_SIZE.
Proof.
  pose proof (validate_image_file_cases (Some f) w) as H. simpl in H.
  destruct (String.eqb (filename f) "") eqn:Hn.
  { rewrite H. simpl. apply String.eqb_eq in Hn. split; [discriminate|].
    intros [Ha _]. rewrite Hn in Ha. discriminate Ha. }
  destruct (allowed_file (filename f)) eqn:Ha; simpl in H.
  2:{ rewrite H. simpl. split; [discriminate|]. intros [? _]. discriminate. }
  destruct (streams w !! stream f) as [st|] eqn:Hst; rewrite H; simpl.
  - destruct (N.ltb_spec MAX_FILE_SIZE (size_of st)) as [Hlt|Hle].
    + split; [discriminate|]. intros [_ (st' & Heq & Hle)].
      inversion Heq; subst. lia.
    + split; [|reflexivity]. intros _. split; [reflexivity|]. eauto.
  - split; [discriminate|]. intros [_ (st' & Heq & _)]. discriminate.
Qed.

(** C6 (the code at the input where it departs from the claim).  A file
    with an empty filename is rejected by the first check, with the
    message "No file provided"; the message "No file selected" of the
    second check is never returned. *)
Theorem empty_filename_is_no_file_provided k w :
  validate_image_file order (Some (mkFile "" k)) w
  = (inr (false, Some "No file provided"), w) /\
  forall file w', fst (validate_image_file order file w')
                  <> inr (false, Some "No file selected").
Proof.
  split; [reflexivity|].
  intros file w'. pose proof (validate_image_file_cases file w') as H.
  destruct file as [f|]; [|rewrite H; discriminate].
  destruct (String.eqb (filename f) ""); [rewrite H; discriminate|].
  destruct (negb (allowed_file (filename f))).
  { rewrite H. simpl. unfold msg_bad_type. simpl. intros Heq.
    inversion Heq. }
  destruct (streams w' !! stream f); rewrite H; [|discriminate].
  simpl. destruct (MAX_FILE_SIZE <? size_of s); discriminate.
Qed.

(** C7.  Validation writes nothing but the position of the stream of the
    file it is given: the global, the trace, the content of every stream
    and every other stream are as before.  A stream that was at offset 0
    is at offset 0 afterwards (the world is unchanged), and after a
    successful validation [read] returns the whole content. *)
Theorem validation_only_rewinds_stream file w :
  let r := validate_image_file order file w in
  rembg_session (snd r) = rembg_session w /\
  trace (snd r) = trace w /\
  (forall k, store_of (snd r) k = store_of w k) /\
  (forall k, Some k <> stream <$> file ->
             streams (snd r) !! k = streams w !! k) /\
  (forall f st, file = Some f -> streams w !! stream f = Some st ->
                position st = 0 -> snd r = w) /\
  (fst r = inr (true, None) ->
   exists f st, file = Some f /\ streams w !! stream f = Some st /\
                streams (snd r) !! stream f = Some (mkStream (content st) 0) /\
                fst (read f (snd r)) = inr (content st)).
Proof.
  pose proof (validate_image_file_cases file w) as H. cbv zeta.
  assert (Hsame : forall r0, validate_image_file order file w = (r0, w) ->
            r0 <> inr (true, None) ->
            rembg_session (snd (r0, w)) = rembg_session w /\
            trace (snd (r0, w)) = trace w /\
            (forall k, store_of (snd (r0, w)) k = store_of w k) /\
            (forall k, Some k <> stream <$> file ->
                       streams (snd (r0, w)) !! k = streams w !! k) /\
            (forall f st, file = Some f -> streams w !! stream f = Some st ->
                          position st = 0 -> snd (r0, w) = w) /\
            (fst (r0, w) = inr (true, None) ->
             exists f st, file = Some f /\ streams w !! stream f = Some st /\
               streams (snd (r0, w)) !! stream f
               = Some (mkStream (content st) 0) /\
               fst (read f (snd (r0, w))) = inr (content st))).
  { intros r0 _ Hr0. simpl. repeat split; auto. intros. contradiction. }
  destruct file as [f|]; [|rewrite H; apply Hsame; [exact H|discriminate]].
  destruct (String.eqb (filename f) "");
    [rewrite H; apply Hsame; [exact H|discriminate]|].
  destruct (negb (allowed_file (filename f)));
    [rewrite H; apply Hsame; [exact H|discriminate]|].
  destruct (streams w !! stream f) as [st|] eqn:Hst;
    [|rewrite H; apply Hsame; [exact H|discriminate]].
  rewrite H. clear H Hsame. unfold rewound, store_of. simpl.
  split; [reflexivity|]. split; [reflexivity|]. split; [|split; [|split]].
  - intros k. destruct (decide (stream f = k)) as [<-|Hne].
    + rewrite lookup_insert_eq, Hst. reflexivity.
    + rewrite lookup_insert_ne by exact Hne. reflexivity.
  - intros k Hk. apply lookup_insert_ne. congruence.
  - intros f' st' Hf Hst' Hpos. inversion Hf; subst f'.
    rewrite Hst in Hst'. inversion Hst'; subst st'.
    destruct w as [sess strs0 tr]. simpl in *. f_equal.
    apply insert_id. rewrite Hst. destruct st; simpl in *. congruence.
  - intros _. exists f, st.
    split; [reflexivity|]. split; [exact Hst|]. split.
    + apply lookup_insert_eq.
    + unfold read, with_stream. simpl. rewrite lookup_insert_eq. simpl.
      reflexivity.
Qed.

End Validator.

(** ** The handlers *)

Section Handlers.

Context `{pil : PIL} `{rembg : Rembg}.
Variable order : list string.

Implicit Types (w : World) (f : FileStorage) (st : Stream).

Ltac no_such_event :=
  intros;
  repeat match goal with
    | H : _ ∈ _ |- _ =>
        rewrite ?elem_of_app, ?elem_of_cons, ?elem_of_nil in H;
        revert H
    end;
  rewrite ?elem_of_app, ?elem_of_cons, ?elem_of_nil;
  intuition discriminate.

Ltac finish_run :=
  rewrite <- ?app_assoc; simpl; eexists; split;
  [reflexivity
  | intros ?; rewrite ?elem_of_cons, ?elem_of_nil;
    intuition (subst; exact I)].

(** Closes a goal about an event of the trace when [Hno] rules the event
    out of the part of the trace that the inner [try] wrote. *)
Ltac codec_only Hno :=
  unfold not; intros;
  match goal with
  | H : _ ∈ _ |- _ =>
      rewrite ?elem_of_cons, ?elem_of_app, ?elem_of_cons, ?elem_of_nil in H;
      decompose [or] H; try congruence;
      exfalso; (eapply Hno; [|eassumption]); simpl; tauto
  end.

Lemma record_nil w : record w [] = w.
Proof. destruct w. unfold record. simpl. rewrite app_nil_r. reflexivity. Qed.

Lemma record_record w a b : record (record w a) b = record w (a ++ b).
Proof. unfold record. simpl. rewrite app_assoc. reflexivity. Qed.

Lemma emit_run ev w : emit ev w = (inr tt, record w [ev]).
Proof. reflexivity. Qed.

Lemma call_run {A} ev (o : Exception + A) w : call ev o w = (o, record w [ev]).
Proof. reflexivity. Qed.

(** The inner [try] never raises: a failure of any of the three PIL calls
    becomes the "Invalid image" response. *)
Lemma decode_and_normalize_run data w :
  exists evs,
    decode_and_normalize data w
    = (inr (match decode data with
            | inl _ => inl resp_invalid_image
            | inr png => inr png
            end), record w evs) /\
    forall ev, ev ∈ evs -> codec_event ev.
Proof.
  unfold decode_and_normalize, decode, try_except, bind, log, call, emit,
    ret, record.
  simpl.
  destruct (Image_open data) as [e|img]; simpl; [finish_run|].
  destruct (mode_is_rgb_or_rgba (mode img)); simpl.
  - destruct (Image_save img "PNG"); simpl; finish_run.
  - destruct (Image_convert img "RGB") as [e|img']; simpl; [finish_run|].
    destruct (Image_save img' "PNG"); simpl; finish_run.
Qed.

(** What the request handler does, in one statement: it never raises; its
    response is [response_of]; it leaves the global session and the
    content of every stream as they were; it appends events to the trace,
    among which any call of [remove] is made with post-processing on and
    with the output of [decode] on the full content of the upload, and
    none creates a session or starts a listener. *)
Lemma remove_background_run request w :
  exists evs strs,
    remove_background order request w
    = (inr (response_of order (rembg_session w) request (store_of w)),
       mkWorld (rembg_session w) strs (trace w ++ evs)) /\
    (forall k, content <$> strs !! k = store_of w k) /\
    (forall d pp, CallRemove d pp ∈ evs ->
       pp = true /\
       exists file st,
         files_get "image" (files request) = Some file /\
         streams w !! stream file = Some st /\
         decode (content st) = inr d) /\
    (forall m, CallNewSession m ∉ evs) /\
    (forall h p d, Listen h p d ∉ evs).
Proof.
  unfold remove_background, response_of.
  destruct w as [sess strs0 tr]. unfold store_of. simpl.
  destruct (method request).
  2:{ exists [], strs0. unfold ret. rewrite app_nil_r.
      split; [reflexivity|]. repeat split; no_such_event. }
  unfold bind at 1. unfold log. rewrite emit_run.
  unfold try_except, bind at 1, get_session, record. simpl.
  destruct sess as [session|].
  2:{ unfold bind, log, emit, ret. simpl. rewrite <- app_assoc. simpl.
      eexists _, _. split; [reflexivity|]. repeat split; no_such_event. }
  destruct (files_get "image" (files request)) as [file|] eqn:Hfile.
  2:{ unfold ret. simpl.
      eexists _, _. split; [reflexivity|]. repeat split; no_such_event. }
  unfold bind at 1.
  destruct (String.eqb (filename file) "") eqn:Hname.
  { apply String.eqb_eq in Hname.
    rewrite (validate_empty_name order file _ Hname). unfold ret. simpl.
    eexists _, _. split; [reflexivity|]. repeat split; no_such_event. }
  apply String.eqb_neq in Hname.
  destruct (allowed_file (filename file)) eqn:Hallowed; simpl.
  2:{ rewrite (validate_bad_type order file _ Hname Hallowed).
      unfold ret. simpl.
      eexists _, _. split; [reflexivity|]. repeat split; no_such_event. }
  destruct (strs0 !! stream file) as [st|] eqn:Hst; simpl.
  2:{ rewrite (validate_closed order file _ Hallowed) by exact Hst.
      unfold bind, log, emit, ret. simpl. rewrite <- app_assoc. simpl.
      eexists _, _. split; [reflexivity|]. repeat split; no_such_event. }
  rewrite (validate_measured order file st _ Hallowed) by exact Hst.
  fold (size_of st).
  assert (Hstore : forall st' k,
            content st' = content st ->
            content <$> (<[stream file := st']> strs0) !! k
            = content <$> strs0 !! k).
  { intros st' k Hc. destruct (decide (stream file = k)) as [<-|Hne].
    - rewrite lookup_insert_eq, Hst. simpl. rewrite Hc. reflexivity.
    - rewrite lookup_insert_ne by exact Hne. reflexivity. }
  destruct (MAX_FILE_SIZE <? size_of st) eqn:Hsize; simpl.
  { unfold ret, rewound. simpl.
    eexists _, _. split; [reflexivity|]. repeat split; try no_such_event.
    intros k. apply Hstore. reflexivity. }
  unfold bind at 1. unfold log. rewrite emit_run.
  unfold bind at 1, read, with_stream, rewound, record. simpl.
  rewrite lookup_insert_eq. simpl. rewrite insert_insert_eq.
  unfold bind at 1.
  match goal with |- context [decode_and_normalize ?d ?w0] =>
    destruct (decode_and_normalize_run d w0) as (evs & -> & Hevs)
  end.
  rewrite drop_0.
  assert (Hno : forall ev, ~ codec_event ev -> ev ∈ evs -> False).
  { intros ev Hev Hin. exact (Hev (Hevs _ Hin)). }
  destruct (decode (content st)) as [e|png] eqn:Hdecode.
  { unfold ret, record. simpl. rewrite <- !app_assoc. simpl.
    eexists _, _. split; [reflexivity|].
    split; [intros k; apply Hstore; reflexivity|].
    repeat split; codec_only Hno. }
  unfold bind at 1. unfold log. rewrite emit_run.
  unfold bind at 1. rewrite call_run.
  assert (Hcall : forall d pp (l1 l2 : list Event),
            (forall ev, ev ∈ l1 ++ l2 -> codec_event ev) ->
            CallRemove d pp ∈ l1 ++ evs ++ CallRemove png true :: l2 ->
            pp = true /\
            exists file0 st0,
              Some file = Some file0 /\ strs0 !! stream file0 = Some st0 /\
              decode (content st0) = inr d).
  { intros d pp l1 l2 Hl. rewrite !elem_of_app, elem_of_cons.
    intros [Hin|[Hin|[Heq|Hin]]].
    - destruct (Hl (CallRemove d pp)). rewrite elem_of_app. tauto.
    - destruct (Hevs _ Hin).
    - inversion Heq; subst. split; [reflexivity|]. eauto.
    - destruct (Hl (CallRemove d pp)). rewrite elem_of_app. tauto. }
  destruct (remove png session true) as [e|out];
    unfold bind, emit, ret, record; simpl; rewrite <- !app_assoc; simpl;
    (eexists _, _; split; [reflexivity|]);
    (split; [intros k; apply Hstore; reflexivity|]);
    (split; [|split; codec_only Hno]); intros d pp Hin.
  - apply (Hcall d pp
             [Log INFO NewRequest; Log INFO (ProcessingImage (filename file))]
             [Log INFO RemovingBackground;
              Log ERROR (RequestFailed (exc_str e))]).
    + intros ev. rewrite elem_of_app, !elem_of_cons, !elem_of_nil.
      intuition (subst; exact I).
    + revert Hin.
      rewrite ?elem_of_cons, ?elem_of_app, ?elem_of_cons, ?elem_of_nil.
      tauto.
  - apply (Hcall d pp
             [Log INFO NewRequest; Log INFO (ProcessingImage (filename file))]
             [Log INFO RemovingBackground; Log INFO BackgroundRemoved]).
    + intros ev. rewrite elem_of_app, !elem_of_cons, !elem_of_nil.
      intuition (subst; exact I).
    + revert Hin.
      rewrite ?elem_of_cons, ?elem_of_app, ?elem_of_cons, ?elem_of_nil.
      tauto.
Qed.

(** C2.  While [rembg_session] is [None], every POST to /api/remove-bg is
    answered 503 "Service not ready", whatever the request carries.  The
    final world is the initial one plus two log lines: no stream was
    sought or read, no PIL or rembg call was made.  In the same state
    GET /health answers 200 with model "not_loaded". *)
Theorem not_ready_is_503 request w :
  rembg_session w = None ->
  method request = POST ->
  remove_background order request w
  = (inr resp_not_ready,
     record w [Log INFO NewRequest; Log ERROR ModelNotInitialized]) /\
  resp_not_ready
  = Json [("error", JString "Service not ready");
          ("message", JString "Background removal model is not loaded")]
         503 /\
  health_check None w = (inr (resp_healthy "not_loaded"), w).
Proof.
  intros Hs Hm. destruct w as [sess strs0 tr]. simpl in Hs. subst sess.
  unfold remove_background, health_check. rewrite Hm.
  unfold bind, try_except, log, emit, get_session, ret, record. simpl.
  rewrite <- app_assoc. repeat split.
Qed.

(** C8 (the code where it departs from the claim).  [health_check]
    answers 200 "healthy" when no call of its [try] body raises, and 503
    "unhealthy" when one does and the [except] clause then runs through.
    The [except] clause repeats the two calls of the [try] body that can
    raise: when one of them raises there as well, that exception leaves
    the handler.  So a fault that lasts, such as a clock read that raises
    on every call, escapes. *)
Theorem health_check_fault_in_except_escapes (hf : HealthFaults) w :
  let in_try :=
    match try_clock hf with Some e => Some e | None => try_jsonify hf end in
  let in_except :=
    match except_clock hf with Some e => Some e | None => except_jsonify hf end in
  fst (health_check (Some hf) w)
  = match in_try, in_except with
    | None, _ =>
        inr (resp_healthy
               (match rembg_session w with
                | Some _ => "loaded" | None => "not_loaded" end))
    | Some e, None => inr (resp_unhealthy e)
    | Some _, Some e' => inl e'
    end /\
  rembg_session (snd (health_check (Some hf) w)) = rembg_session w /\
  forall e, fst (health_check
                   (Some (mkHealthFaults (Some e) None (Some e) None)) w)
            = inl e.
Proof.
  cbv zeta. split; [|split].
  - unfold health_check, try_except, bind, get_session, log, emit, ret,
      may_raise, raise.
    destruct hf as [[e1|] [e2|] [e3|] [e4|]]; simpl;
      try reflexivity; destruct (rembg_session w); reflexivity.
  - unfold health_check, try_except, bind, get_session, log, emit, ret,
      may_raise, raise.
    destruct hf as [[e1|] [e2|] [e3|] [e4|]]; simpl; reflexivity.
  - intros e. reflexivity.
Qed.

(** ** Start-up *)

Lemma init_model_run w :
  init_model w
  = match new_session model_name with
    | inl e =>
        (inl e,
         record w [Log INFO InitializingModel; CallNewSession model_name;
                   Log ERROR (InitFailed (exc_str e))])
    | inr s =>
        (inr tt,
         mkWorld (Some s) (streams w)
           (trace w ++ [Log INFO InitializingModel;
                        CallNewSession model_name;
                        Log INFO ModelInitialized]))
    end.
Proof.
  unfold init_model, try_except, bind, log, call, emit, set_session, raise,
    record.
  simpl. destruct (new_session model_name); simpl;
    rewrite <- !app_assoc; reflexivity.
Qed.

(** Run as a script, the module loads the model before it starts the
    listener.  If [new_session] raises [e], [init_model] logs and raises
    the same [e], the script ends with [e], the global stays [None] and
    the trace has no [Listen] event.  If [new_session] returns [s], the
    global is [Some s], and the listener starts only afterwards, on
    0.0.0.0 and the port read from the environment (unless reading the
    port raises).  In every case [new_session] is called exactly once,
    and the request handler neither calls it nor writes the global. *)
Lemma script_startup (port : Exception + Z) :
  (match new_session model_name with
  | inl e =>
      (forall w, fst (init_model w) = inl e /\
                 rembg_session (snd (init_model w)) = rembg_session w) /\
      module_body "__main__" port initial_world
      = (inl e,
         mkWorld None ∅
           [Log INFO InitializingModel; CallNewSession model_name;
            Log ERROR (InitFailed (exc_str e))])
  | inr s =>
      (forall w, fst (init_model w) = inr tt /\
                 rembg_session (snd (init_model w)) = Some s) /\
      module_body "__main__" port initial_world
      = match port with
        | inl e' =>
            (inl e',
             mkWorld (Some s) ∅
               [Log INFO InitializingModel; CallNewSession model_name;
                Log INFO ModelInitialized])
        | inr p =>
            (inr tt,
             mkWorld (Some s) ∅
               [Log INFO InitializingModel; CallNewSession model_name;
                Log INFO ModelInitialized; Listen "0.0.0.0" p false])
        end
  end) /\
  (forall request w,
      let r := remove_background order request w in
      rembg_session (snd r) = rembg_session w /\
      exists evs, trace (snd r) = trace w ++ evs /\
                  forall m, CallNewSession m ∉ evs).
Proof.
  split.
  2:{ intros request w.
      destruct (remove_background_run request w)
        as (evs & strs & Hrun & _ & _ & Hnew & _).
      cbv zeta. rewrite Hrun. simpl. eauto. }
  assert (Hrun : module_body "__main__" port initial_world
                 = match init_model initial_world with
                   | (inl e, w) => (inl e, w)
                   | (inr _, w) =>
                       match port with
                       | inl e' => (inl e', w)
                       | inr p => (inr tt, record w [Listen "0.0.0.0" p false])
                       end
                   end).
  { unfold module_body, main, bind, set_session, lift, app_run, emit.
    simpl. destruct (init_model _) as [[e|[]] w]; [reflexivity|].
    destruct port; reflexivity. }
  rewrite Hrun, init_model_run. clear Hrun.
  destruct (new_session model_name) as [e|s] eqn:Hnew.
  - split; [|reflexivity].
    intros w. rewrite init_model_run, Hnew. simpl. auto.
  - split.
    + intros w. rewrite init_model_run, Hnew. simpl. auto.
    + simpl.
      destruct port; reflexivity.
Qed.

(** C3 (the code where it departs from the claim).  The model is loaded
    only by the [__main__] block.  Imported under the name [app], as a
    WSGI server does with [app:app], the module body returns normally
    whether or not the model can be loaded: [new_session] is not called,
    nothing is logged, and the global stays [None]; no handler writes the
    global afterwards, so every POST to /api/remove-bg is answered 503.
    Run as a script, a failure of [new_session] ends the script with the
    same exception before any [Listen] event, and a success sets the
    global once, before the listener starts. *)
Theorem model_is_loaded_only_when_run_as_script (port : Exception + Z) :
  module_body "app" port initial_world = (inr tt, initial_world) /\
  (forall w request,
      rembg_session w = None ->
      rembg_session (snd (remove_background order request w)) = None /\
      (method request = POST ->
       fst (remove_background order request w) = inr resp_not_ready)) /\
  match new_session model_name with
  | inl e =>
      module_body "__main__" port initial_world
      = (inl e,
         mkWorld None ∅
           [Log INFO InitializingModel; CallNewSession model_name;
            Log ERROR (InitFailed (exc_str e))])
  | inr s =>
      module_body "__main__" port initial_world
      = match port with
        | inl e' =>
            (inl e',
             mkWorld (Some s) ∅
               [Log INFO InitializingModel; CallNewSession model_name;
                Log INFO ModelInitialized])
        | inr p =>
            (inr tt,
             mkWorld (Some s) ∅
               [Log INFO InitializingModel; CallNewSession model_name;
                Log INFO ModelInitialized; Listen "0.0.0.0" p false])
        end
  end.
Proof.
  split; [reflexivity|]. split.
  - intros w request Hs.
    destruct (remove_background_run request w) as (evs & strs & -> & _).
    simpl. split; [exact Hs|].
    intros Hm. unfold response_of. rewrite Hm, Hs. reflexivity.
  - destruct (script_startup port) as [Hscript _].
    destruct (new_session model_name); apply Hscript.
Qed.

(** ** The request handler *)

Lemma mode_is_rgb_or_rgba_spec m :
  mode_is_rgb_or_rgba m = true <-> m = "RGB" \/ m = "RGBA".
Proof.
  unfold mode_is_rgb_or_rgba. rewrite bool_decide_eq_true.
  rewrite !elem_of_cons, elem_of_nil. tauto.
Qed.

(** What a successful [decode] went through. *)
Lemma decode_inr data png :
  decode data = inr png ->
  exists decoded img,
    Image_open data = inr decoded /\
    (if mode_is_rgb_or_rgba (mode decoded) then img = decoded
     else Image_convert decoded "RGB" = inr img) /\
    (mode img = "RGB" \/ mode img = "RGBA") /\
    Image_save img "PNG" = inr png.
Proof.
  unfold decode. destruct (Image_open data) as [e|decoded]; [discriminate|].
  destruct (mode_is_rgb_or_rgba (mode decoded)) eqn:Hmode.
  - intros Hsave. exists decoded, decoded. rewrite Hmode.
    repeat split; auto. apply mode_is_rgb_or_rgba_spec, Hmode.
  - destruct (Image_convert decoded "RGB") as [e|img] eqn:Hconv;
      [discriminate|].
    intros Hsave. exists decoded, img. rewrite Hmode.
    repeat split; auto. left. apply (Image_convert_mode _ _ _ Hconv).
Qed.

(** Whenever the handler calls [remove], the bytes it passes are the
    PNG serialization ([Image_save img "PNG"]) of an image [img] of mode
    RGB or RGBA, where [img] is the image decoded from the full content
    of the upload when that is already RGB or RGBA, and its conversion to
    RGB otherwise. *)
Lemma remove_calls_carry_normalized_png request w :
  exists evs,
    trace (snd (remove_background order request w)) = trace w ++ evs /\
    forall data pp,
      CallRemove data pp ∈ evs ->
      exists file st decoded img,
        files_get "image" (files request) = Some file /\
        streams w !! stream file = Some st /\
        Image_open (content st) = inr decoded /\
        (if mode_is_rgb_or_rgba (mode decoded) then img = decoded
         else Image_convert decoded "RGB" = inr img) /\
        (mode img = "RGB" \/ mode img = "RGBA") /\
        Image_save img "PNG" = inr data.
Proof.
  destruct (remove_background_run request w)
    as (evs & strs & Hrun & _ & Hcall & _).
  exists evs. rewrite Hrun. split; [reflexivity|].
  intros data pp Hin.
  destruct (Hcall _ _ Hin) as (_ & file & st & Hfile & Hst & Hdec).
  destruct (decode_inr _ _ Hdec) as (decoded & img & ? & ? & ? & ?).
  exists file, st, decoded, img. auto 10.
Qed.

Ltac norm_trace :=
  rewrite ?app_nil_r; repeat rewrite <- app_assoc; simpl.

(** The run of the inner [try], call by call. *)
Lemma decode_and_normalize_exact data w :
  decode_and_normalize data w
  = match Image_open data with
    | inl e =>
        (inr (inl resp_invalid_image),
         record w [CallImageOpen data; Log ERROR (ImageFailed (exc_str e))])
    | inr decoded =>
        let conv :=
          if mode_is_rgb_or_rgba (mode decoded) then []
          else [Log INFO (ConvertingImage (mode decoded)); CallConvert "RGB"] in
        match (if mode_is_rgb_or_rgba (mode decoded) then inr decoded
               else Image_convert decoded "RGB") with
        | inl e =>
            (inr (inl resp_invalid_image),
             record w (CallImageOpen data :: conv
                       ++ [Log ERROR (ImageFailed (exc_str e))]))
        | inr img =>
            match Image_save img "PNG" with
            | inl e =>
                (inr (inl resp_invalid_image),
                 record w (CallImageOpen data :: conv
                           ++ [CallSave "PNG";
                               Log ERROR (ImageFailed (exc_str e))]))
            | inr png =>
                (inr (inr png),
                 record w (CallImageOpen data :: conv ++ [CallSave "PNG"]))
            end
        end
    end.
Proof.
  unfold decode_and_normalize, try_except, bind, log, call, emit, ret, record.
  simpl. destruct (Image_open data) as [e|decoded]; simpl.
  { rewrite <- !app_assoc. reflexivity. }
  destruct (mode_is_rgb_or_rgba (mode decoded)); simpl.
  - destruct (Image_save decoded "PNG"); simpl; rewrite <- !app_assoc;
      reflexivity.
  - destruct (Image_convert decoded "RGB") as [e|img]; simpl.
    { rewrite <- !app_assoc. reflexivity. }
    destruct (Image_save img "PNG"); simpl; rewrite <- !app_assoc;
      reflexivity.
Qed.

(** The handler on an upload that passes validation: it logs, reads the
    whole stream, runs the inner [try] on the bytes read and, when that
    yields re-encoded bytes, calls [remove] on them. *)
Lemma remove_background_accepted request w session file st :
  method request = POST ->
  rembg_session w = Some session ->
  files_get "image" (files request) = Some file ->
  fst (validate_image_file order (Some file) w) = inr (true, None) ->
  streams w !! stream file = Some st ->
  remove_background order request w
  = match decode_and_normalize (content st)
            (mkWorld (Some session)
               (<[stream file := mkStream (content st) (size_of st)]>
                  (streams w))
               (trace w ++ [Log INFO NewRequest;
                            Log INFO (ProcessingImage (filename file))])) with
    | (inl e, w2) =>
        (inr resp_internal_error,
         record w2 [Log ERROR (RequestFailed (exc_str e))])
    | (inr (inl response), w2) => (inr response, w2)
    | (inr (inr png), w2) =>
        match remove png session true with
        | inl e =>
            (inr resp_internal_error,
             record w2 [Log INFO RemovingBackground; CallRemove png true;
                        Log ERROR (RequestFailed (exc_str e))])
        | inr out =>
            (inr (SendFile out "image/png" false "removed_bg.png"),
             record w2 [Log INFO RemovingBackground; CallRemove png true;
                        Log INFO BackgroundRemoved])
        end
    end.
Proof.
  intros Hm Hs Hf Hv Hst.
  apply validate_accepts_iff in Hv as [Ha (st' & Hst' & Hle)].
  rewrite Hst in Hst'. inversion Hst'; subst st'. clear Hst'.
  apply N.ltb_ge in Hle.
  destruct w as [sess strs0 tr]. simpl in Hs, Hst. subst sess.
  unfold remove_background. rewrite Hm.
  unfold bind at 1. unfold log. rewrite emit_run.
  unfold try_except, bind at 1, get_session, record. simpl.
  rewrite Hf. unfold bind at 1.
  rewrite (validate_measured order file st _ Ha) by exact Hst.
  rewrite Hle. simpl.
  unfold bind at 1. rewrite emit_run.
  unfold bind at 1, read, with_stream, rewound, record. simpl.
  rewrite lookup_insert_eq. simpl. rewrite insert_insert_eq, drop_0.
  rewrite N.max_0_l, <- app_assoc. simpl.
  unfold bind at 1.
  destruct (decode_and_normalize _ _) as [[e|[response|png]] w2].
  - unfold bind, emit, ret. reflexivity.
  - reflexivity.
  - unfold bind at 1. rewrite emit_run. unfold bind at 1. rewrite call_run.
    destruct (remove png session true) as [e|out].
    + unfold bind, emit, ret, record. simpl. rewrite <- !app_assoc.
      reflexivity.
    + unfold bind, emit, ret, record. simpl. rewrite <- !app_assoc.
      reflexivity.
Qed.

(** C4.  For every upload that passes validation and that [Image.open]
    decodes: when the decoded mode is not RGB or RGBA the handler calls
    [convert('RGB')] on the image, and not otherwise; the resulting image
    has mode RGB or RGBA; the handler then calls [save(format='PNG')] on
    it, and next calls [remove] on exactly the bytes [save] returned, with
    mask post-processing on.  If [convert] or [save] raises, the answer is
    400 "Invalid image" and [remove] is not called.  Moreover, for every
    request, every call of [remove] the handler makes is of this kind. *)
Theorem decoded_upload_reaches_inference_as_png
    request w session file st decoded :
  method request = POST ->
  rembg_session w = Some session ->
  files_get "image" (files request) = Some file ->
  fst (validate_image_file order (Some file) w) = inr (true, None) ->
  streams w !! stream file = Some st ->
  Image_open (content st) = inr decoded ->
  let run := remove_background order request w in
  let conv :=
    if mode_is_rgb_or_rgba (mode decoded) then []
    else [Log INFO (ConvertingImage (mode decoded)); CallConvert "RGB"] in
  let decoding :=
    trace w ++ [Log INFO NewRequest;
                Log INFO (ProcessingImage (filename file));
                CallImageOpen (content st)] ++ conv in
  match (if mode_is_rgb_or_rgba (mode decoded) then inr decoded
         else Image_convert decoded "RGB") with
  | inl e =>
      fst run = inr resp_invalid_image /\
      trace (snd run) = decoding ++ [Log ERROR (ImageFailed (exc_str e))]
  | inr img =>
      (mode img = "RGB" \/ mode img = "RGBA") /\
      match Image_save img "PNG" with
      | inl e =>
          fst run = inr resp_invalid_image /\
          trace (snd run)
          = decoding ++ [CallSave "PNG"; Log ERROR (ImageFailed (exc_str e))]
      | inr png =>
          exists last,
            trace (snd run)
            = decoding ++ [CallSave "PNG"; Log INFO RemovingBackground;
                           CallRemove png true; last]
      end
  end /\
  forall request' w',
    exists evs,
      trace (snd (remove_background order request' w')) = trace w' ++ evs /\
      forall data pp,
        CallRemove data pp ∈ evs ->
        pp = true /\
        exists img,
          (mode img = "RGB" \/ mode img = "RGBA") /\
          Image_save img "PNG" = inr data.
Proof.
  intros Hm Hs Hf Hv Hst Hopen. cbv zeta. split.
  - rewrite (remove_background_accepted request w session file st)
      by assumption.
    rewrite decode_and_normalize_exact, Hopen. cbv zeta.
    destruct (mode_is_rgb_or_rgba (mode decoded)) eqn:Hmode.
    + split; [apply mode_is_rgb_or_rgba_spec, Hmode|].
      destruct (Image_save decoded "PNG") as [e|png].
      * simpl. norm_trace. split; reflexivity.
      * destruct (remove png session true) as [e|out]; simpl; eexists;
          norm_trace; reflexivity.
    + destruct (Image_convert decoded "RGB") as [e|img] eqn:Hconv.
      * simpl. norm_trace. split; reflexivity.
      * split; [left; apply (Image_convert_mode _ _ _ Hconv)|].
        destruct (Image_save img "PNG") as [e|png].
        -- simpl. norm_trace. split; reflexivity.
        -- destruct (remove png session true) as [e|out]; simpl; eexists;
             norm_trace; reflexivity.
  - intros request' w'.
    destruct (remove_background_run request' w')
      as (evs & strs & Hrun & _ & Hcall & _).
    exists evs. rewrite Hrun. split; [reflexivity|].
    intros data pp Hin.
    destruct (Hcall _ _ Hin) as (Hpp & file' & st' & _ & _ & Hdec).
    split; [exact Hpp|].
    destruct (decode_inr _ _ Hdec) as (decoded' & img & _ & _ & ? & ?).
    exists img. auto.
Qed.

(** C5.  An upload that passes validation and on which PIL raises (in
    [Image.open], in [convert] or in [save]) is answered 400 "Invalid
    image" with a fixed message: the response does not depend on the
    exception. *)
Theorem undecodable_upload_is_400 request w session file st e :
  method request = POST ->
  rembg_session w = Some session ->
  files_get "image" (files request) = Some file ->
  fst (validate_image_file order (Some file) w) = inr (true, None) ->
  streams w !! stream file = Some st ->
  decode (content st) = inl e ->
  fst (remove_background order request w) = inr resp_invalid_image /\
  resp_invalid_image
  = Json [("error", JString "Invalid image");
          ("message", JString
             "Could not process image file. Please ensure it's a valid image.")]
         400.
Proof.
  intros Hm Hs Hf Hv Hst Hdec. split; [|reflexivity].
  destruct (remove_background_run request w) as (evs & strs & -> & _).
  simpl. f_equal. unfold response_of, store_of.
  apply validate_accepts_iff in Hv as [Ha (st' & Hst' & Hle)].
  rewrite Hst in Hst'. inversion Hst'; subst st'.
  rewrite Hm, Hs, Hf, Ha, Hst. simpl.
  pose proof (allowed_file_nonempty _ Ha) as Hn.
  apply String.eqb_neq in Hn. rewrite Hn.
  fold (size_of st). apply N.ltb_ge in Hle. rewrite Hle, Hdec. reflexivity.
Qed.

(** With fixed collaborators, the handler does not write [rembg_session],
    and its response is a function of the session, the request and the
    content of the streams.  So handling a request a second time gives the same response
    as the first time, and the response to a request is the same whether
    or not another request was handled before it. *)
Lemma repeated_request_same_response request w :
  let r1 := remove_background order request w in
  let r2 := remove_background order request (snd r1) in
  fst r2 = fst r1 /\
  rembg_session (snd r1) = rembg_session w /\
  rembg_session (snd r2) = rembg_session w /\
  (forall request0,
      fst (remove_background order request
             (snd (remove_background order request0 w)))
      = fst r1) /\
  (forall w0,
      rembg_session w0 = rembg_session w ->
      (forall k, store_of w0 k = store_of w k) ->
      fst (remove_background order request w0) = fst r1).
Proof.
  assert (Hdep : forall w1 w2,
            rembg_session w1 = rembg_session w2 ->
            (forall k, store_of w1 k = store_of w2 k) ->
            fst (remove_background order request w1)
            = fst (remove_background order request w2)).
  { intros w1 w2 Hs Hk.
    destruct (remove_background_run request w1) as (? & ? & -> & _).
    destruct (remove_background_run request w2) as (? & ? & -> & _).
    simpl. rewrite Hs. f_equal. unfold response_of.
    destruct (method request), (rembg_session w2); try reflexivity.
    destruct (files_get "image" (files request)); try reflexivity.
    rewrite Hk. reflexivity. }
  assert (Hkeep : forall req w1,
            rembg_session (snd (remove_background order req w1))
            = rembg_session w1 /\
            forall k, store_of (snd (remove_background order req w1)) k
                      = store_of w1 k).
  { intros req w1.
    destruct (remove_background_run req w1) as (? & ? & -> & Hk & _).
    simpl. split; [reflexivity|]. exact Hk. }
  cbv zeta.
  destruct (Hkeep request w) as [Hs1 Hk1].
  destruct (Hkeep request (snd (remove_background order request w)))
    as [Hs2 Hk2].
  split; [apply Hdep; assumption|].
  split; [assumption|]. split; [congruence|]. split.
  - intros request0. destruct (Hkeep request0 w). apply Hdep; assumption.
  - intros w0 Hs Hk. apply Hdep; assumption.
Qed.

(** C1 (the code on an oversized upload).  With the model loaded, an
    upload with an allowed name whose stream holds more than
    [MAX_FILE_SIZE] bytes is answered 400 "Invalid file" with the "File
    too large" message of the validator, not 413; the 413 body is built
    only by the error handler [request_entity_too_large]. *)
Theorem oversized_upload_is_400 request w session file st :
  method request = POST ->
  rembg_session w = Some session ->
  files_get "image" (files request) = Some file ->
  allowed_file (filename file) = true ->
  streams w !! stream file = Some st ->
  MAX_FILE_SIZE < size_of st ->
  fst (remove_background order request w)
  = inr (Json [("error", JString "Invalid file");
               ("message", JString "File too large. Maximum size: 10.0MB")]
              400) /\
  forall error, status_code (request_entity_too_large error) = 413.
Proof.
  intros Hm Hs Hf Ha Hst Hlt. split; [|reflexivity].
  destruct (remove_background_run request w) as (evs & strs & -> & _).
  simpl. f_equal. unfold response_of, store_of.
  rewrite Hm, Hs, Hf, Ha, Hst. simpl.
  pose proof (allowed_file_nonempty _ Ha) as Hn.
  apply String.eqb_neq in Hn. rewrite Hn.
  fold (size_of st). apply N.ltb_lt in Hlt. rewrite Hlt. reflexivity.
Qed.

End Handlers.

(** * The properties on concrete runs *)

Section Runs.

Existing Instance Sample.pil.
Existing Instance Sample.rembg_ok.

Lemma oversized_size :
  size_of (mkStream Sample.oversized 0) = MAX_FILE_SIZE + 1.
Proof.
  unfold size_of, Sample.oversized. cbn [content].
  rewrite length_replicate. apply N2Nat.id.
Qed.

(** C1: an upload of 10 MiB + 1 bytes named [big.png], model loaded. *)
Lemma oversized_upload_is_400_witness :
  fst (remove_background Sample.order (Sample.upload "big.png")
         (Sample.ready Sample.oversized))
  = inr (Json [("error", JString "Invalid file");
               ("message", JString "File too large. Maximum size: 10.0MB")]
              400).
Proof.
  destruct (oversized_upload_is_400 Sample.order
              (Sample.upload "big.png") (Sample.ready Sample.oversized)
              tt (mkFile "big.png" 0) (mkStream Sample.oversized 0))
    as [Hrun _].
  - reflexivity.
  - reflexivity.
  - reflexivity.
  - vm_compute. reflexivity.
  - apply lookup_singleton_eq.
  - rewrite oversized_size. lia.
  - exact Hrun.
Defined.

(** C2: a valid upload while the model is not loaded. *)
Lemma not_ready_is_503_witness :
  fst (remove_background Sample.order (Sample.upload "cat.png") (Sample.not_ready Sample.grey_png))
  = inr resp_not_ready /\
  fst (health_check None (Sample.not_ready Sample.grey_png))
  = inr (resp_healthy "not_loaded").
Proof.
  destruct (not_ready_is_503 Sample.order (Sample.upload "cat.png")
              (Sample.not_ready Sample.grey_png) eq_refl eq_refl)
    as (Hrun & _ & Hhealth).
  rewrite Hrun, Hhealth. split; reflexivity.
Defined.

(** C5: a text file uploaded as [notes.png]. *)
Lemma undecodable_upload_is_400_witness :
  fst (remove_background Sample.order (Sample.upload "notes.png") (Sample.ready Sample.text_file))
  = inr resp_invalid_image.
Proof.
  apply (undecodable_upload_is_400 Sample.order
           (Sample.upload "notes.png") (Sample.ready Sample.text_file)
           tt (mkFile "notes.png" 0) (mkStream Sample.text_file 0)
           Sample.unidentified);
    vm_compute; reflexivity.
Defined.

(** A greyscale upload goes through conversion and reaches [remove] as
    an RGB image; submitted twice it is answered 200 twice, with the same
    body. *)
Example grey_upload_run :
  let r1 := remove_background Sample.order (Sample.upload "cat.png")
              (Sample.ready Sample.grey_png) in
  let r2 := remove_background Sample.order (Sample.upload "cat.png") (snd r1) in
  fst r1 = inr (SendFile [Byte.x01; Byte.x10; Byte.x20; Byte.x30]
                  "image/png" false "removed_bg.png") /\
  fst r2 = fst r1 /\
  trace (snd r1)
  = [Log INFO NewRequest; Log INFO (ProcessingImage "cat.png");
     CallImageOpen Sample.grey_png; Log INFO (ConvertingImage "L");
     CallConvert "RGB"; CallSave "PNG"; Log INFO RemovingBackground;
     CallRemove [Byte.x01; Byte.x10; Byte.x20; Byte.x30] true;
     Log INFO BackgroundRemoved].
Proof. vm_compute. repeat split. Qed.

(** The script with a model that loads, and with one that does not. *)
Example script_starts_listener :
  trace (snd (module_body "__main__" (inr 5000%Z) initial_world))
  = [Log INFO InitializingModel; CallNewSession "isnet-general-use";
     Log INFO ModelInitialized; Listen "0.0.0.0" 5000 false].
Proof. reflexivity. Qed.

Example script_aborts_on_load_error :
  module_body (rembg := Sample.rembg_broken) "__main__" (inr 5000%Z)
    initial_world
  = (inl Sample.load_error,
     mkWorld None ∅
       [Log INFO InitializingModel; CallNewSession "isnet-general-use";
        Log ERROR (InitFailed "model file not found")]).
Proof. reflexivity. Qed.

(** Imported rather than run (a WSGI server loading [app:app]), the
    module never calls [init_model]: the global stays [None]. *)
Example import_does_not_load_model :
  module_body "app" (inr 5000%Z) initial_world = (inr tt, initial_world).
Proof. reflexivity. Qed.

End Runs.

(** * Further properties of the code *)

(** ** [allowed_file]: the exact set of accepted names *)

Section ExtensionCases.

Lemma rsplit_last_inv c s h t :
  PyStr.rsplit_last c s = Some (h, t) ->
  s = h +:+ String c t /\ PyStr.contains c t = false.
Proof.
  revert h. induction s as [|x s IH]; simpl; [discriminate|].
  intros h. destruct (PyStr.rsplit_last c s) as [[h' t']|] eqn:Hs.
  - intros Heq. inversion Heq; subst.
    destruct (IH h' eq_refl) as [-> Ht]. split; [reflexivity|exact Ht].
  - destruct (Ascii.eqb x c) eqn:Hx; [|discriminate].
    intros Heq. inversion Heq; subst. apply Ascii.eqb_eq in Hx. subst x.
    split; [reflexivity|].
    destruct (PyStr.contains c t) eqn:Hc; [|reflexivity].
    destruct (rsplit_last_some _ _ Hc) as (? & ? & Hsome). congruence.
Qed.

Lemma lower_ascii_dot c :
  Ascii.eqb (PyStr.lower_ascii c) "." = Ascii.eqb c ".".
Proof.
  destruct c as [[] [] [] [] [] [] [] []]; vm_compute; reflexivity.
Qed.

Lemma lower_ascii_idem c :
  PyStr.lower_ascii (PyStr.lower_ascii c) = PyStr.lower_ascii c.
Proof.
  destruct c as [[] [] [] [] [] [] [] []]; vm_compute; reflexivity.
Qed.

Lemma lower_idem s : PyStr.lower (PyStr.lower s) = PyStr.lower s.
Proof.
  induction s as [|x s IH]; simpl; [reflexivity|].
  rewrite lower_ascii_idem, IH. reflexivity.
Qed.

Lemma contains_dot_lower s :
  PyStr.contains "." (PyStr.lower s) = PyStr.contains "." s.
Proof.
  induction s as [|x s IH]; simpl; [reflexivity|].
  rewrite lower_ascii_dot, IH. reflexivity.
Qed.

Lemma rsplit_last_lower s :
  PyStr.rsplit_last "." (PyStr.lower s)
  = match PyStr.rsplit_last "." s with
    | Some (h, t) => Some (PyStr.lower h, PyStr.lower t)
    | None => None
    end.
Proof.
  induction s as [|x s IH]; simpl; [reflexivity|].
  rewrite IH. destruct (PyStr.rsplit_last "." s) as [[h t]|].
  - reflexivity.
  - rewrite lower_ascii_dot. destruct (Ascii.eqb x "."); reflexivity.
Qed.

End ExtensionCases.

(** X1.  A name is accepted by [allowed_file] exactly when it has the form
    [base.ext] where [ext] contains no dot and lower-cases to one of png,
    jpg, jpeg, webp. *)
Theorem allowed_file_iff name :
  allowed_file name = true <->
  exists base ext,
    name = base +:+ "." +:+ ext /\
    PyStr.contains "." ext = false /\
    PyStr.lower ext ∈ ALLOWED_EXTENSIONS.
Proof.
  split.
  - unfold allowed_file, PyStr.rsplit. intros H.
    apply andb_true_iff in H as [Hdot H].
    destruct (rsplit_last_some _ _ Hdot) as (h & t & Hs).
    rewrite Hs in H. simpl in H. apply bool_decide_eq_true in H.
    destruct (rsplit_last_inv _ _ _ _ Hs) as [-> Ht].
    exists h, t. auto.
  - intros (base & ext & -> & Hext & Hin).
    rewrite (allowed_file_split _ _ Hext). apply bool_decide_eq_true, Hin.
Qed.

(** X2.  The extension check ignores letter case: a name and its
    lower-cased form get the same answer, hence so do any two names that
    differ only in the case of their letters. *)
Theorem allowed_file_ignores_case name :
  allowed_file (PyStr.lower name) = allowed_file name /\
  forall other, PyStr.lower other = PyStr.lower name ->
                allowed_file other = allowed_file name.
Proof.
  assert (H : forall s, allowed_file (PyStr.lower s) = allowed_file s).
  { intros s. unfold allowed_file, PyStr.rsplit.
    rewrite contains_dot_lower, rsplit_last_lower.
    destruct (PyStr.rsplit_last "." s) as [[h t]|]; simpl.
    - rewrite lower_idem. reflexivity.
    - reflexivity. }
  split; [apply H|].
  intros other Heq. rewrite <- (H other), <- (H name), Heq. reflexivity.
Qed.

(** ** The validator and the handler on the remaining paths *)

Section Coverage.

Context `{pil : PIL} `{rembg : Rembg}.
Variable order : list string.

Implicit Types (w : World) (f : FileStorage) (st : Stream).

(** The validator neither reads nor writes the trace. *)
Lemma validate_ignores_trace file w evs :
  validate_image_file order file (record w evs)
  = (fst (validate_image_file order file w),
     record (snd (validate_image_file order file w)) evs).
Proof.
  pose proof (validate_image_file_cases order file w) as H.
  pose proof (validate_image_file_cases order file (record w evs)) as H'.
  destruct file as [f|]; [|rewrite H, H'; reflexivity].
  destruct (String.eqb (filename f) ""); [rewrite H, H'; reflexivity|].
  destruct (negb (allowed_file (filename f))); [rewrite H, H'; reflexivity|].
  simpl in H'.
  destruct (streams w !! stream f); rewrite H, H'; reflexivity.
Qed.

Lemma validate_keeps_trace file w :
  trace (snd (validate_image_file order file w)) = trace w.
Proof.
  pose proof (validate_image_file_cases order file w) as H.
  destruct file as [f|]; [|rewrite H; reflexivity].
  destruct (String.eqb (filename f) ""); [rewrite H; reflexivity|].
  destruct (negb (allowed_file (filename f))); [rewrite H; reflexivity|].
  destruct (streams w !! stream f); rewrite H; reflexivity.
Qed.

(** A rejection always carries a message, an acceptance never does. *)
Lemma validate_result_shape file w v m :
  fst (validate_image_file order file w) = inr (v, m) ->
  (v = true /\ m = None) \/ (v = false /\ exists msg, m = Some msg).
Proof.
  pose proof (validate_image_file_cases order file w) as H.
  assert (Hrej : forall msg w',
            validate_image_file order file w = (inr (false, Some msg), w') ->
            fst (validate_image_file order file w) = inr (v, m) ->
            (v = true /\ m = None) \/ (v = false /\ exists msg, m = Some msg)).
  { intros msg w' -> Heq. inversion Heq; subst. right. eauto. }
  destruct file as [f|]; [|exact (Hrej _ _ H)].
  destruct (String.eqb (filename f) ""); [exact (Hrej _ _ H)|].
  destruct (negb (allowed_file (filename f))); [exact (Hrej _ _ H)|].
  destruct (streams w !! stream f) as [st|]; [|rewrite H; discriminate].
  destruct (MAX_FILE_SIZE <? size_of st); [exact (Hrej _ _ H)|].
  rewrite H. intros Heq. inversion Heq; subst. left. auto.
Qed.

(** X3.  With the model loaded, a POST whose form has no [image] file field
    is answered 400 "Bad request"; the handler writes one log line and
    touches neither a stream nor PIL nor rembg. *)
Theorem missing_image_field_is_400 request w session :
  method request = POST ->
  rembg_session w = Some session ->
  files_get "image" (files request) = None ->
  remove_background order request w
  = (inr (Json [("error", JString "Bad request");
                ("message", JString "No image file provided in request")]
               400),
     record w [Log INFO NewRequest]).
Proof.
  intros Hm Hs Hf. unfold remove_background. rewrite Hm.
  unfold bind, try_except, log, emit, get_session, ret, record. simpl.
  rewrite Hs, Hf. reflexivity.
Qed.

(** X4.  With the model loaded, an upload that the validator rejects is
    answered 400 "Invalid file" with the validator's message, which is
    always a string.  The handler stops there: the trace gains the "new
    request" log line and nothing else, so no byte of the upload is read or
    decoded and rembg is not called. *)
Theorem rejected_upload_is_400_without_decoding request w session file m :
  method request = POST ->
  rembg_session w = Some session ->
  files_get "image" (files request) = Some file ->
  fst (validate_image_file order (Some file) w) = inr (false, m) ->
  exists msg,
    m = Some msg /\
    fst (remove_background order request w)
    = inr (Json [("error", JString "Invalid file");
                 ("message", JString msg)] 400) /\
    trace (snd (remove_background order request w))
    = trace w ++ [Log INFO NewRequest].
Proof.
  intros Hm Hs Hf Hv.
  destruct (validate_result_shape _ _ _ _ Hv) as [[? _]|[_ [msg ->]]];
    [discriminate|].
  exists msg. split; [reflexivity|].
  assert (Hrun : remove_background order request w
                 = (inr (resp_invalid_file (Some msg)),
                    record (snd (validate_image_file order (Some file) w))
                           [Log INFO NewRequest])).
  { unfold remove_background. rewrite Hm.
    unfold bind at 1. unfold log. rewrite emit_run.
    unfold try_except, bind at 1, get_session.
    assert (Hs' : rembg_session (record w [Log INFO NewRequest])
                  = Some session) by exact Hs.
    rewrite Hs', Hf. unfold bind at 1.
    rewrite validate_ignores_trace, Hv. reflexivity. }
  rewrite Hrun. simpl. rewrite validate_keeps_trace. split; reflexivity.
Qed.

(** X5.  The success path: with the model loaded, for an upload that
    passes validation, that PIL decodes and re-encodes to [png], and on
    which rembg returns [out], the response is 200 with [out] as an
    [image/png] body, shown inline under the name [removed_bg.png]. *)
Theorem valid_upload_is_200 request w session file st png out :
  method request = POST ->
  rembg_session w = Some session ->
  files_get "image" (files request) = Some file ->
  fst (validate_image_file order (Some file) w) = inr (true, None) ->
  streams w !! stream file = Some st ->
  decode (content st) = inr png ->
  remove png session true = inr out ->
  fst (remove_background order request w)
  = inr (SendFile out "image/png" false "removed_bg.png") /\
  status_code (SendFile out "image/png" false "removed_bg.png") = 200.
Proof.
  intros Hm Hs Hf Hv Hst Hdec Hrem. split; [|reflexivity].
  destruct (remove_background_run order request w) as (evs & strs & -> & _).
  simpl. f_equal. unfold response_of, store_of.
  apply validate_accepts_iff in Hv as [Ha (st' & Hst' & Hle)].
  rewrite Hst in Hst'. inversion Hst'; subst st'.
  rewrite Hm, Hs, Hf, Ha, Hst. simpl.
  pose proof (allowed_file_nonempty _ Ha) as Hn.
  apply String.eqb_neq in Hn. rewrite Hn.
  fold (size_of st). apply N.ltb_ge in Hle.
  rewrite Hle, Hdec, Hrem. reflexivity.
Qed.

(** X6.  When the segmentation call raises on a valid, decodable upload,
    the outer [except] answers 500 "Internal server error" with a fixed
    message that does not contain the exception. *)
Theorem segmentation_error_is_500 request w session file st png e :
  method request = POST ->
  rembg_session w = Some session ->
  files_get "image" (files request) = Some file ->
  fst (validate_image_file order (Some file) w) = inr (true, None) ->
  streams w !! stream file = Some st ->
  decode (content st) = inr png ->
  remove png session true = inl e ->
  fst (remove_background order request w)
  = inr (Json [("error", JString "Internal server error");
               ("message", JString
                  "An error occurred while processing your image. Please try again.")]
              500).
Proof.
  intros Hm Hs Hf Hv Hst Hdec Hrem.
  destruct (remove_background_run order request w) as (evs & strs & -> & _).
  simpl. f_equal. unfold response_of, store_of.
  apply validate_accepts_iff in Hv as [Ha (st' & Hst' & Hle)].
  rewrite Hst in Hst'. inversion Hst'; subst st'.
  rewrite Hm, Hs, Hf, Ha, Hst. simpl.
  pose proof (allowed_file_nonempty _ Ha) as Hn.
  apply String.eqb_neq in Hn. rewrite Hn.
  fold (size_of st). apply N.ltb_ge in Hle.
  rewrite Hle, Hdec, Hrem. reflexivity.
Qed.


(** X8.  The size limit is inclusive: for a file with an allowed name and
    an open stream, validation succeeds exactly when the stream holds at
    most [MAX_FILE_SIZE] (10485760) bytes, and answers "File too large"
    exactly when it holds more. *)
Theorem validation_size_boundary f st w :
  allowed_file (filename f) = true ->
  streams w !! stream f = Some st ->
  (fst (validate_image_file order (Some f) w) = inr (true, None) <->
   size_of st <= MAX_FILE_SIZE) /\
  (fst (validate_image_file order (Some f) w)
   = inr (false, Some "File too large. Maximum size: 10.0MB") <->
   MAX_FILE_SIZE < size_of st).
Proof.
  intros Ha Hst. rewrite (validate_measured order f st w Ha Hst). simpl.
  destruct (N.ltb_spec MAX_FILE_SIZE (size_of st)) as [Hlt|Hle].
  - split; split; try discriminate; try lia; reflexivity || auto.
  - split; split; try discriminate; try lia; reflexivity || auto.
Qed.

(** X9.  Loaded under any name other than [__main__] (imported by a WSGI
    server), the module body does not call [init_model]: the world is
    unchanged, the global is [None] and no listener is started by the
    module.  From then on no request changes the global, so every POST
    to /api/remove-bg is answered 503, whatever it carries. *)
Theorem imported_module_is_never_ready name port :
  name <> "__main__" ->
  module_body name port initial_world = (inr tt, initial_world) /\
  forall w request,
    rembg_session w = None ->
    rembg_session (snd (remove_background order request w)) = None /\
    (method request = POST ->
     fst (remove_background order request w) = inr resp_not_ready).
Proof.
  intros Hname. split.
  - unfold module_body, bind, set_session. simpl.
    apply String.eqb_neq in Hname. rewrite Hname. reflexivity.
  - intros w request Hs.
    destruct (remove_background_run order request w) as (evs & strs & -> & _).
    simpl. split; [exact Hs|].
    intros Hm. unfold response_of. rewrite Hm, Hs. reflexivity.
Qed.

(** X10.  When the model loads, [init_model] makes the service ready from
    any state: the global holds the new session (replacing an earlier
    one), GET /health reports the model "loaded", and no request is
    answered 503. *)
Theorem init_model_makes_service_ready s w :
  new_session model_name = inr s ->
  let w' := snd (init_model w) in
  fst (init_model w) = inr tt /\
  rembg_session w' = Some s /\
  fst (health_check None w') = inr (resp_healthy "loaded") /\
  forall request r,
    fst (remove_background order request w') = inr r ->
    status_code r <> 503.
Proof.
  intros Hnew. cbv zeta. rewrite init_model_run, Hnew. simpl.
  split; [reflexivity|]. split; [reflexivity|]. split; [reflexivity|].
  intros request r.
  match goal with |- context [remove_background order request ?w0] =>
    destruct (remove_background_run order request w0)
      as (evs & strs & -> & _)
  end.
  simpl. intros Heq. inversion Heq; subst r. clear Heq.
  unfold response_of. destruct (method request); [|discriminate].
  destruct (files_get "image" (files request)) as [file|]; [|discriminate].
  destruct (String.eqb (filename file) ""); [discriminate|].
  destruct (negb (allowed_file (filename file))); [discriminate|].
  match goal with |- context [store_of ?w0 ?k] =>
    destruct (store_of w0 k) as [data|]; [|discriminate]
  end.
  destruct (MAX_FILE_SIZE <? N.of_nat (length data)); [discriminate|].
  destruct (decode data) as [e|png]; [discriminate|].
  destruct (remove png s true); discriminate.
Qed.

(** X11.  An upload that PIL opens in mode RGB or RGBA is not converted:
    the inner [try] makes exactly two PIL calls, [Image.open] and
    [save(format='PNG')], so an RGBA image reaches the segmentation call
    with its alpha channel; if [save] raises, the result is the "Invalid
    image" response. *)
Theorem rgb_or_rgba_upload_is_not_converted data img w :
  Image_open data = inr img ->
  mode img = "RGB" \/ mode img = "RGBA" ->
  decode_and_normalize data w
  = match Image_save img "PNG" with
    | inr png =>
        (inr (inr png), record w [CallImageOpen data; CallSave "PNG"])
    | inl e =>
        (inr (inl resp_invalid_image),
         record w [CallImageOpen data; CallSave "PNG";
                   Log ERROR (ImageFailed (exc_str e))])
    end.
Proof.
  intros Hopen Hmode. apply mode_is_rgb_or_rgba_spec in Hmode.
  unfold decode_and_normalize, try_except, bind, call, log, emit, ret, record.
  simpl. rewrite Hopen. simpl. rewrite Hmode. simpl.
  destruct (Image_save img "PNG"); simpl; rewrite <- !app_assoc; reflexivity.
Qed.

End Coverage.

(** ** The further properties on concrete runs *)

Section CoverageRuns.

Existing Instance Sample.pil.

Lemma largest_size :
  size_of (mkStream Sample.largest 0) = MAX_FILE_SIZE.
Proof.
  unfold size_of, Sample.largest. cbn [content].
  rewrite length_replicate. apply N2Nat.id.
Qed.

(** X3: a POST whose only file field is named [photo]. *)
Lemma missing_image_field_is_400_witness :
  fst (remove_background (rembg := Sample.rembg_ok) Sample.order
         (mkRequest POST [("photo", mkFile "cat.png" 0)])
         (Sample.ready Sample.grey_png))
  = inr resp_bad_request.
Proof.
  rewrite (missing_image_field_is_400 (rembg := Sample.rembg_ok) Sample.order
             (mkRequest POST [("photo", mkFile "cat.png" 0)])
             (Sample.ready Sample.grey_png) tt eq_refl eq_refl eq_refl).
  reflexivity.
Defined.

(** X4: an upload named [notes.txt]. *)
Lemma rejected_upload_is_400_without_decoding_witness :
  exists msg,
    fst (remove_background (rembg := Sample.rembg_ok) Sample.order
           (Sample.upload "notes.txt") (Sample.ready Sample.text_file))
    = inr (Json [("error", JString "Invalid file");
                 ("message", JString msg)] 400) /\
    trace (snd (remove_background (rembg := Sample.rembg_ok) Sample.order
                  (Sample.upload "notes.txt")
                  (Sample.ready Sample.text_file)))
    = [Log INFO NewRequest].
Proof.
  destruct (rejected_upload_is_400_without_decoding
              (rembg := Sample.rembg_ok) Sample.order
              (Sample.upload "notes.txt") (Sample.ready Sample.text_file)
              tt (mkFile "notes.txt" 0)
              (Some (msg_bad_type Sample.order))
              eq_refl eq_refl eq_refl)
    as (msg & _ & Hresp & Htrace).
  - vm_compute. reflexivity.
  - exists msg. split; [exact Hresp | exact Htrace].
Defined.

(** X5: a colour image uploaded as [cat.PNG]. *)
Lemma valid_upload_is_200_witness :
  fst (remove_background (rembg := Sample.rembg_ok) Sample.order
         (Sample.upload "cat.PNG") (Sample.ready Sample.rgba_png))
  = inr (SendFile Sample.rgba_png "image/png" false "removed_bg.png").
Proof.
  apply (valid_upload_is_200 (rembg := Sample.rembg_ok) Sample.order
           (Sample.upload "cat.PNG") (Sample.ready Sample.rgba_png)
           tt (mkFile "cat.PNG" 0) (mkStream Sample.rgba_png 0)
           Sample.rgba_png Sample.rgba_png);
    vm_compute; reflexivity.
Defined.

(** X6: the same image with a back end whose segmentation call raises. *)
Lemma segmentation_error_is_500_witness :
  fst (remove_background (rembg := Sample.rembg_faulty) Sample.order
         (Sample.upload "cat.png")
         (@mkWorld Sample.rembg_faulty (Some tt)
            {[ 0 := mkStream Sample.rgba_png 0 ]} []))
  = inr resp_internal_error.
Proof.
  apply (segmentation_error_is_500 (rembg := Sample.rembg_faulty)
           Sample.order (Sample.upload "cat.png")
           (@mkWorld Sample.rembg_faulty (Some tt)
              {[ 0 := mkStream Sample.rgba_png 0 ]} [])
           tt (mkFile "cat.png" 0) (mkStream Sample.rgba_png 0)
           Sample.rgba_png Sample.inference_error);
    vm_compute; reflexivity.
Defined.

(** X8: a file of exactly 10485760 bytes is accepted. *)
Lemma validation_size_boundary_witness :
  fst (validate_image_file (rembg := Sample.rembg_ok) Sample.order
         (Some (mkFile "max.png" 0)) (Sample.ready Sample.largest))
  = inr (true, None).
Proof.
  destruct (validation_size_boundary (rembg := Sample.rembg_ok) Sample.order
              (mkFile "max.png" 0) (mkStream Sample.largest 0)
              (Sample.ready Sample.largest)) as [[_ Haccept] _].
  - vm_compute. reflexivity.
  - apply lookup_singleton_eq.
  - apply Haccept. rewrite largest_size. lia.
Defined.

(** X9: the module imported under the name [app]. *)
Lemma imported_module_is_never_ready_witness :
  module_body (rembg := Sample.rembg_ok) "app" (inr 5000%Z) initial_world
  = (inr tt, initial_world) /\
  fst (remove_background (rembg := Sample.rembg_ok) Sample.order
         (Sample.upload "cat.png") (Sample.not_ready Sample.grey_png))
  = inr resp_not_ready.
Proof.
  destruct (imported_module_is_never_ready (rembg := Sample.rembg_ok)
              Sample.order "app" (inr 5000%Z)) as [Hbody Hnever].
  - discriminate.
  - split; [exact Hbody|].
    apply (Hnever (Sample.not_ready Sample.grey_png)
             (Sample.upload "cat.png") eq_refl).
    reflexivity.
Defined.

(** X10: [init_model] in the state of a process that was not ready. *)
Lemma init_model_makes_service_ready_witness :
  rembg_session (snd (init_model (rembg := Sample.rembg_ok)
                        (Sample.not_ready Sample.grey_png)))
  = Some tt.
Proof.
  apply (init_model_makes_service_ready (rembg := Sample.rembg_ok)
           Sample.order tt (Sample.not_ready Sample.grey_png) eq_refl).
Defined.

(** X11: the colour image is re-encoded without conversion. *)
Lemma rgb_or_rgba_upload_is_not_converted_witness :
  decode_and_normalize (rembg := Sample.rembg_ok) Sample.rgba_png
    (Sample.ready Sample.rgba_png)
  = (inr (inr Sample.rgba_png),
     record (Sample.ready Sample.rgba_png)
       [CallImageOpen Sample.rgba_png; CallSave "PNG"]).
Proof.
  apply (rgb_or_rgba_upload_is_not_converted (pil := Sample.pil)
           (rembg := Sample.rembg_ok) Sample.rgba_png
           (("RGBA", [Byte.x0a; Byte.x0b; Byte.x0c]) : @Image Sample.pil)
           (Sample.ready Sample.rgba_png) eq_refl).
  right. reflexivity.
Defined.

End CoverageRuns.

(** ** The same image submitted twice *)

Section Resubmission.

Variables (pil1 pil2 : PIL) (S : Type) (load : string -> Exception + S).
Variables (segment1 segment2 : bytes -> S -> bool -> Exception + bytes).
Variable order : list string.




End Resubmission.

(** ** The revised properties on concrete runs *)

Section ResubmissionRuns.

Existing Instance Sample.pil.

(** C4: the greyscale upload is converted, saved as PNG and passed on. *)
Lemma decoded_upload_reaches_inference_as_png_witness :
  exists last,
    trace (snd (remove_background (rembg := Sample.rembg_ok) Sample.order
                  (Sample.upload "cat.png") (Sample.ready Sample.grey_png)))
    = [Log INFO NewRequest; Log INFO (ProcessingImage "cat.png");
       CallImageOpen Sample.grey_png; Log INFO (ConvertingImage "L");
       CallConvert "RGB"; CallSave "PNG"; Log INFO RemovingBackground;
       CallRemove [Byte.x01; Byte.x10; Byte.x20; Byte.x30] true; last].
Proof.
  pose proof (decoded_upload_reaches_inference_as_png
                (rembg := Sample.rembg_ok) Sample.order
                (Sample.upload "cat.png") (Sample.ready Sample.grey_png)
                tt (mkFile "cat.png" 0) (mkStream Sample.grey_png 0)
                (("L", [Byte.x10; Byte.x20; Byte.x30]) : @Image Sample.pil)
                eq_refl eq_refl eq_refl eq_refl eq_refl eq_refl) as H.
  vm_compute in H. vm_compute. exact (proj2 (proj1 H)).
Defined.



End ResubmissionRuns.
